(** * Verification of the Ollama proxy service (hosting-llm-ec2/app.py)

    Shallow embedding of the request reshaping, forwarding, error
    translation and health-check logic of [app.py], followed by the
    properties stated about them.

    Python dictionaries are finite maps with string keys ([gmap string _]);
    values of type [Any] are JSON values ([pyval]); calls to the backend go
    through a small state-and-exception monad whose state is the trace of
    HTTP calls issued so far. *)

From Stdlib Require Import ZArith String List.
From stdpp Require Import base option gmap strings list fin_maps pretty.

Local Open Scope Z_scope.
Local Open Scope string_scope.
Local Set Warnings "-register-all".

(** ** Python values *)

(** A value of type [Any] as it comes out of a JSON document.  Floating
    point numbers are kept as their literal: the service never computes
    with them. *)
Inductive pyval : Type :=
| PNone
| PBool (b : bool)
| PInt (z : Z)
| PFloat (literal : string)
| PStr (s : string)
| PList (l : list pyval)
| PDict (d : gmap string pyval).

(** ** Pydantic models (lines 45-82) *)

(** [class ToolCall(BaseModel)]: one field, [function : Dict[str, Any]]. *)
Record ToolCall : Type := mkToolCall {
  function : gmap string pyval
}.

(** [class ChatMessage(BaseModel)]. *)
Record ChatMessage : Type := mkChatMessage {
  role : string;
  content : option string;
  tool_calls : option (list ToolCall)
}.

(** [class ChatRequest(BaseModel)] (lines 65-76).  [model] always holds a
    string: pydantic has already put [DEFAULT_MODEL] where the caller
    gave none. *)
Record ChatRequest : Type := mkChatRequest {
  messages : list ChatMessage;
  model : string;
  stream : option bool;
  options : option (gmap string pyval);
  tools : option (list (gmap string pyval));
  keep_alive : option string
}.

(** [class HealthResponse(BaseModel)] (lines 78-82). *)
Record HealthResponse : Type := mkHealthResponse {
  status : string;
  timestamp : string;
  ollama_status : string;
  available_models : list string
}.

(** Python truthiness, at the types the service tests it. *)
Definition truthy_str (s : option string) : bool :=
  match s with
  | Some (String _ _) => true
  | _ => false
  end.

Definition truthy_list {A : Type} (l : option (list A)) : bool :=
  match l with
  | Some (_ :: _) => true
  | _ => false
  end.

Definition truthy_dict (d : option (gmap string pyval)) : bool :=
  match d with
  | Some m => negb (bool_decide (m = ∅))
  | None => false
  end.

(** [ChatMessage.__init__] (lines 59-63), applied to the validated fields:
    the call to the parent initialiser stores them, then the body fills in an
    empty [content] when neither field carries anything. *)
Definition ChatMessage_init (r : string) (c : option string)
    (tcs : option (list ToolCall)) : ChatMessage :=
  let self := mkChatMessage r c tcs in
  if negb (truthy_str (content self)) && negb (truthy_list (tool_calls self))
  then mkChatMessage (role self) (Some "") (tool_calls self)
  else self.

(** ** The message reshaper (lines 119-140) *)

(** The loop of lines 131-134: one [{"function": ...}] per tool call,
    appended in order. *)
Fixpoint convert_tool_calls (tcs : list ToolCall) : list pyval :=
  match tcs with
  | [] => []
  | tool_call :: rest =>
      PDict {[ "function" := PDict (function tool_call) ]}
      :: convert_tool_calls rest
  end.

Definition format_message_for_ollama (message : ChatMessage)
    : gmap string pyval :=
  let ollama_message : gmap string pyval :=
    {[ "role" := PStr (role message) ]} in
  let ollama_message :=
    match content message with
    | Some (String _ _ as c) => <[ "content" := PStr c ]> ollama_message
    | _ => ollama_message
    end in
  let ollama_message :=
    match tool_calls message with
    | Some ((_ :: _) as tcs) =>
        <[ "tool_calls" := PList (convert_tool_calls tcs) ]> ollama_message
    | _ => ollama_message
    end in
  if negb (truthy_str (content message))
     && negb (truthy_list (tool_calls message))
  then <[ "content" := PStr "" ]> ollama_message
  else ollama_message.

(** ** Configuration (lines 40-42) *)

Definition OLLAMA_BASE_URL : string := "http://localhost:11434".
Definition DEFAULT_MODEL : string := "llama3.1:8b".
Definition REQUEST_TIMEOUT : Z := 720.

(** ** Exceptions *)

(** The exception classes the handlers of the service tell apart.
    [httpx.TimeoutException] is a subclass of [httpx.RequestError];
    [RequestError] below stands for the members of that family which are
    not timeouts (connection refused, unreachable host, ...). *)
Inductive exn : Type :=
| TimeoutException (msg : string)
| RequestError (msg : string)
| HTTPException (status_code : Z) (detail : string)
| ValidationError (msg : string)
| OtherException (msg : string).

Definition isinstance_TimeoutException (e : exn) : bool :=
  match e with TimeoutException _ => true | _ => false end.

Definition isinstance_RequestError (e : exn) : bool :=
  match e with TimeoutException _ | RequestError _ => true | _ => false end.

Definition isinstance_HTTPException (e : exn) : bool :=
  match e with HTTPException _ _ => true | _ => false end.

(** [str(e)].  For [HTTPException] this is Starlette's
    [f"{self.status_code}: {self.detail}"]. *)
Definition str_exn (e : exn) : string :=
  match e with
  | TimeoutException msg | RequestError msg
  | ValidationError msg | OtherException msg => msg
  | HTTPException code detail => pretty code ++ ": " ++ detail
  end.

(** ** The backend and the effect monad *)

(** What [httpx] hands back for a completed exchange: the status line,
    the body as text, the body decoded by [response.json()] ([None] when
    it is not a JSON document, in which case [json()] raises a decoding
    error whose text, which depends on the body, is [resp_json_error]),
    and the body as [response.aiter_lines()] yields it. *)
Record Response : Type := mkResponse {
  resp_status_code : Z;
  resp_text : string;
  resp_json : option pyval;
  resp_json_error : string;
  resp_lines : list string
}.

(** One call on [http_client]. *)
Inductive http_call : Type :=
| Get (url : string)
| Post (url : string) (json : pyval).

(** A call either completes with a response or raises. *)
Inductive outcome : Type :=
| Responded (r : Response)
| Failed (e : exn).

(** The backend answers each call knowing the calls made before it. *)
Definition backend : Type := list http_call -> http_call -> outcome.

Inductive result (A : Type) : Type :=
| Ok (a : A)
| Raise (e : exn).
Arguments Ok {A} a.
Arguments Raise {A} e.

(** Computations that may call the backend and may raise.  The state is
    the list of calls issued so far, oldest first. *)
Definition M (A : Type) : Type := list http_call -> result A * list http_call.

Definition ret {A : Type} (a : A) : M A := fun tr => (Ok a, tr).

Definition raise {A : Type} (e : exn) : M A := fun tr => (Raise e, tr).

Definition bind {A B : Type} (k : A -> M B) (m : M A) : M B :=
  fun tr =>
    match m tr with
    | (Ok a, tr') => k a tr'
    | (Raise e, tr') => (Raise e, tr')
    end.

#[global] Instance M_ret : MRet M := @ret.
#[global] Instance M_bind : MBind M := @bind.

(** [try: body except ...: handler e].  What [body] did before raising
    stays done. *)
Definition try_except {A : Type} (body : M A) (handler : exn -> M A) : M A :=
  fun tr =>
    match body tr with
    | (Ok a, tr') => (Ok a, tr')
    | (Raise e, tr') => handler e tr'
    end.

(** [await http_client.get(url)] and [await http_client.post(url, json=...)]:
    the call is recorded, then the backend's answer is returned or raised. *)
Definition http_request (be : backend) (c : http_call) : M Response :=
  fun tr =>
    match be tr c with
    | Responded r => (Ok r, (tr ++ [c])%list)
    | Failed e => (Raise e, (tr ++ [c])%list)
    end.

Definition http_get (be : backend) (url : string) : M Response :=
  http_request be (Get url).

Definition http_post (be : backend) (url : string) (json : pyval) : M Response :=
  http_request be (Post url json).

(** [response.json()]. *)
Definition response_json (r : Response) : M pyval :=
  match resp_json r with
  | Some v => mret v
  | None => raise (OtherException (resp_json_error r))
  end.

(** ** Health check (lines 105-117 and 159-169) *)

(** What [check_ollama_health] returns: the dictionary
    [{"status": ..., "models": ...}]. *)
Record OllamaHealth : Type := mkOllamaHealth {
  health_status : string;
  health_models : list pyval
}.

(** [models_data.get("models", [])]: only a dictionary has [get]. *)
Definition get_models (models_data : pyval) : M pyval :=
  match models_data with
  | PDict d => mret (default (PList []) (d !! "models"))
  | _ => raise (OtherException "object has no attribute 'get'")
  end.

(** [for model in ...]: lists yield their elements, strings their
    characters, dictionaries their keys; nothing else is iterable. *)
Definition py_iter (v : pyval) : M (list pyval) :=
  match v with
  | PList l => mret l
  | PStr s => mret ((fun c => PStr (String c EmptyString)) <$> list_ascii_of_string s)
  | PDict d => mret (PStr <$> (map_to_list d).*1)
  | _ => raise (OtherException "object is not iterable")
  end.

(** [model["name"]]. *)
Definition subscript_name (model : pyval) : M pyval :=
  match model with
  | PDict d =>
      match d !! "name" with
      | Some v => mret v
      | None => raise (OtherException "'name'")
      end
  | _ => raise (OtherException "indices must be integers or object is not subscriptable")
  end.

(** The comprehension of line 111. *)
Fixpoint model_names (ms : list pyval) : M (list pyval) :=
  match ms with
  | [] => mret []
  | model :: rest =>
      name ← subscript_name model;
      names ← model_names rest;
      mret (name :: names)
  end.

Definition tags_url : string := OLLAMA_BASE_URL ++ "/api/tags".

(** Logging is left out here and below: the calls to [logger] neither
    raise nor change what is returned. *)
Definition check_ollama_health (be : backend) : M OllamaHealth :=
  try_except
    (response ← http_get be tags_url;
     if (resp_status_code response =? 200)%Z then
       models_data ← response_json response;
       ms ← get_models models_data;
       ms ← py_iter ms;
       models ← model_names ms;
       mret (mkOllamaHealth "healthy" models)
     else
       mret (mkOllamaHealth "unhealthy" []))
    (fun e => mret (mkOllamaHealth "unhealthy" [])).

(** Pydantic's validation of the field [available_models: List[str]]
    (line 82): every element has to be a string.  (Pydantic 1 also takes
    numbers, converting them; null, lists and dictionaries are refused by
    every version.  Nothing below depends on how numbers are treated.) *)
Fixpoint validate_str_list (vs : list pyval) : M (list string) :=
  match vs with
  | [] => mret []
  | PStr s :: rest =>
      ss ← validate_str_list rest;
      mret (s :: ss)
  | _ :: _ => raise (ValidationError "Input should be a valid string")
  end.

(** The constructor call [HealthResponse(...)] of lines 164-169. *)
Definition HealthResponse_init (st ts ost : string) (models : list pyval)
    : M HealthResponse :=
  ms ← validate_str_list models;
  mret (mkHealthResponse st ts ost ms).

(** [GET /health].  [now] is [datetime.utcnow().isoformat()]. *)
Definition health_check (be : backend) (now : string) : M HealthResponse :=
  ollama_health ← check_ollama_health be;
  HealthResponse_init
    (if String.eqb (health_status ollama_health) "healthy"
     then "healthy" else "degraded")
    now
    (health_status ollama_health)
    (health_models ollama_health).

(** ** Chat completion (lines 171-267) *)

(** The line feed that ends every relayed chunk. *)
Definition LF : string := String (Ascii.ascii_of_nat 10) EmptyString.

(** The loop of lines 197-200. *)
Fixpoint format_messages (msgs : list ChatMessage) : list pyval :=
  match msgs with
  | [] => []
  | message :: rest =>
      PDict (format_message_for_ollama message) :: format_messages rest
  end.

(** [request.stream or False]; the test [if request.stream:] of line 236
    is true for the same values. *)
Definition stream_or_False (s : option bool) : bool :=
  match s with
  | Some true => true
  | _ => false
  end.

(** Lines 197-214: the dictionary sent to Ollama. *)
Definition build_ollama_request (request : ChatRequest) : gmap string pyval :=
  let ollama_messages := format_messages (messages request) in
  let ollama_request : gmap string pyval :=
    <[ "stream" := PBool (stream_or_False (stream request)) ]>
      (<[ "messages" := PList ollama_messages ]>
         {[ "model" := PStr (model request) ]}) in
  let ollama_request :=
    match options request with
    | Some o =>
        if truthy_dict (Some o)
        then <[ "options" := PDict o ]> ollama_request
        else ollama_request
    | None => ollama_request
    end in
  let ollama_request :=
    match tools request with
    | Some ((_ :: _) as ts) =>
        <[ "tools" := PList (PDict <$> ts) ]> ollama_request
    | _ => ollama_request
    end in
  match keep_alive request with
  | Some (String _ _ as ka) => <[ "keep_alive" := PStr ka ]> ollama_request
  | _ => ollama_request
  end.

(** The generator [stream_response] of lines 237-240, run over the lines
    [response.aiter_lines()] yields. *)
Fixpoint stream_response (chunks : list string) : list string :=
  match chunks with
  | [] => []
  | chunk :: rest =>
      if truthy_str (Some chunk)
      then (chunk ++ LF) :: stream_response rest
      else stream_response rest
  end.

(** What the endpoint returns: a [StreamingResponse] over the chunks of
    the generator, or the decoded JSON document. *)
Inductive ChatResponse : Type :=
| StreamingResponse (body : list string) (media_type : string)
| JSONDocument (v : pyval).

Definition chat_url : string := OLLAMA_BASE_URL ++ "/api/chat".

Definition chat_completion (be : backend) (request : ChatRequest)
    : M ChatResponse :=
  try_except
    (let ollama_request := build_ollama_request request in
     response ← http_post be chat_url (PDict ollama_request);
     if negb (resp_status_code response =? 200)%Z then
       raise (HTTPException (resp_status_code response)
                ("Ollama request failed: " ++ resp_text response))
     else if stream_or_False (stream request) then
       mret (StreamingResponse (stream_response (resp_lines response))
               "application/x-ndjson")
     else
       ollama_response ← response_json response;
       mret (JSONDocument ollama_response))
    (fun e =>
       if isinstance_TimeoutException e then
         raise (HTTPException 504
                  "Request timeout - the model is taking too long to respond")
       else if isinstance_RequestError e then
         raise (HTTPException 503 "Unable to connect to Ollama service")
       else
         raise (HTTPException 500 ("Internal server error: " ++ str_exn e))).

(** ** Model information (lines 291-312) *)

Definition show_url : string := OLLAMA_BASE_URL ++ "/api/show".

Definition get_model_info (be : backend) (model_name : string) : M pyval :=
  try_except
    (response ← http_post be show_url (PDict {[ "name" := PStr model_name ]});
     if (resp_status_code response =? 200)%Z then
       response_json response
     else if (resp_status_code response =? 404)%Z then
       raise (HTTPException 404 ("Model '" ++ model_name ++ "' not found"))
     else
       raise (HTTPException 500
                ("Failed to get model info: " ++ pretty (resp_status_code response))))
    (fun e =>
       if isinstance_HTTPException e then raise e
       else raise (HTTPException 500 (str_exn e))).

(** ** Model listing (lines 269-289) *)

Definition list_models (be : backend) : M pyval :=
  try_except
    (response ← http_get be tags_url;
     if (resp_status_code response =? 200)%Z then
       response_json response
     else
       raise (HTTPException 500
                ("Failed to fetch models: " ++ pretty (resp_status_code response))))
    (fun e =>
       if isinstance_RequestError e then
         raise (HTTPException 503 "Unable to connect to Ollama service")
       else
         raise (HTTPException 500 (str_exn e))).

(** ** Legacy generate endpoint (lines 315-338) *)

Definition generate_url : string := OLLAMA_BASE_URL ++ "/api/generate".

(** [request: dict] is the JSON object of the body, passed on as it is. *)
Definition generate_completion (be : backend) (request : gmap string pyval)
    : M pyval :=
  try_except
    (response ← http_post be generate_url (PDict request);
     if negb (resp_status_code response =? 200)%Z then
       raise (HTTPException (resp_status_code response)
                ("Ollama request failed: " ++ resp_text response))
     else
       response_json response)
    (fun e => raise (HTTPException 500 (str_exn e))).

(** ** Startup (lines 341-353) *)

Inductive log_level : Type := INFO | WARNING.

(** [startup_event] returns nothing; besides the health check, all it does
    is log.  Its result here is the list of records it hands to [logger],
    in order. *)
Definition startup_event (be : backend) : M (list (log_level * string)) :=
  let log1 :=
    [(INFO, "LLM Service starting up...");
     (INFO, "Service designed for Strands SDK OllamaModel compatibility with tool calling support")] in
  ollama_health ← check_ollama_health be;
  if String.eqb (health_status ollama_health) "healthy" then
    let log2 :=
      [(INFO, "Ollama is healthy with "
              ++ pretty (length (health_models ollama_health))
              ++ " models available");
       (INFO, "Ready to serve Strands SDK requests with tool calling support")] in
    mret (log1 ++ log2)%list
  else
    let log2 :=
      [(WARNING, "Ollama service is not healthy - some endpoints may not work")] in
    mret (log1 ++ log2)%list.

(** An entry of the model list that yields a name: a dictionary with a
    [name] key. *)
Definition names_entry (entry name : pyval) : Prop :=
  ∃ m : gmap string pyval, entry = PDict m ∧ m !! "name" = Some name.

(** An entry that yields none. *)
Definition nameless (entry : pyval) : Prop :=
  ∀ m : gmap string pyval, entry = PDict m → m !! "name" = None.

(** ** Sample inputs *)

Definition DQ : string := String (Ascii.ascii_of_nat 34) EmptyString.

Definition add_LF (chunk : string) : string := chunk ++ LF.

Definition calculator_call : ToolCall :=
  mkToolCall {[ "name" := PStr "calculator" ]}.

Definition tool_call_message : ChatMessage :=
  mkChatMessage "assistant" (Some "") (Some [calculator_call]).

Definition hello_request (s : option bool) : ChatRequest :=
  mkChatRequest [mkChatMessage "user" (Some "hello") None]
    DEFAULT_MODEL s None None None.

Definition refusing_backend : backend :=
  fun _ _ => Failed (RequestError "All connection attempts failed").

Definition slow_backend : backend :=
  fun _ _ => Failed (TimeoutException "timed out").


Definition missing_model_response : Response :=
  mkResponse 404 "model not found" None
    "Expecting value: line 1 column 1 (char 0)" ["model not found"].

Definition missing_model_backend : backend :=
  fun _ _ => Responded missing_model_response.

Definition two_documents_response : Response :=
  mkResponse 200 ("{a:1}" ++ LF ++ "{b:2}" ++ LF) None
    "Expecting property name enclosed in double quotes: line 1 column 2 (char 1)"
    ["{a:1}"; "{b:2}"].

Definition two_documents_backend : backend :=
  fun _ _ => Responded two_documents_response.

(** Three lines, the second of them empty. *)
Definition blank_line_response : Response :=
  mkResponse 200 ("first" ++ LF ++ LF ++ "second" ++ LF) None
    "Expecting value: line 1 column 1 (char 0)"
    ["first"; ""; "second"].

Definition blank_line_backend : backend :=
  fun _ _ => Responded blank_line_response.

(** The backend lists one model whose [name] is null. *)
Definition unnamed_model_response : Response :=
  mkResponse 200
    ("{" ++ DQ ++ "models" ++ DQ ++ ":[{" ++ DQ ++ "name" ++ DQ ++ ":null}]}")
    (Some (PDict {[ "models" := PList [PDict {[ "name" := PNone ]}] ]}))
    ""
    ["{" ++ DQ ++ "models" ++ DQ ++ ":[{" ++ DQ ++ "name" ++ DQ ++ ":null}]}"].

Definition unnamed_model_backend : backend :=
  fun _ _ => Responded unnamed_model_response.

(** A key or string value as it is written in a JSON text. *)
Definition quoted (s : string) : string := DQ ++ s ++ DQ.

(** A buffered answer: one JSON document. *)
Definition answer_document : pyval :=
  PDict {[ "message" := PDict {[ "role" := PStr "assistant";
                                 "content" := PStr "4" ]};
           "done" := PBool true ]}.

Definition answer_text : string :=
  "{" ++ quoted "message" ++ ":{" ++ quoted "role" ++ ":" ++ quoted "assistant"
  ++ "," ++ quoted "content" ++ ":" ++ quoted "4" ++ "},"
  ++ quoted "done" ++ ":true}".

Definition answer_response : Response :=
  mkResponse 200 answer_text (Some answer_document) "" [answer_text].

Definition answering_backend : backend :=
  fun _ _ => Responded answer_response.

(** The backend lists two models. *)
Definition two_models_entries : list pyval :=
  [PDict {[ "name" := PStr "llama3.1:8b"; "size" := PInt 4661224676 ]};
   PDict {[ "name" := PStr "mistral:7b" ]}].

Definition two_models_text : string :=
  "{" ++ quoted "models" ++ ":[{" ++ quoted "name" ++ ":" ++ quoted "llama3.1:8b"
  ++ "," ++ quoted "size" ++ ":4661224676},{" ++ quoted "name" ++ ":"
  ++ quoted "mistral:7b" ++ "}]}".

Definition two_models_response : Response :=
  mkResponse 200 two_models_text
    (Some (PDict {[ "models" := PList two_models_entries ]}))
    ""
    [two_models_text].

Definition two_models_backend : backend :=
  fun _ _ => Responded two_models_response.

(** The second of two entries has no [name]. *)
Definition nameless_entry_text : string :=
  "{" ++ quoted "models" ++ ":[{" ++ quoted "name" ++ ":" ++ quoted "llama3.1:8b"
  ++ "},{" ++ quoted "size" ++ ":1}]}".

Definition nameless_entry_response : Response :=
  mkResponse 200 nameless_entry_text
    (Some (PDict {[ "models" :=
                      PList [PDict {[ "name" := PStr "llama3.1:8b" ]};
                             PDict {[ "size" := PInt 1 ]}] ]}))
    ""
    [nameless_entry_text].

Definition nameless_entry_backend : backend :=
  fun _ _ => Responded nameless_entry_response.

(** A 200 answer whose document has no [models] key. *)
Definition no_models_key_response : Response :=
  mkResponse 200 "{}" (Some (PDict ∅)) "" ["{}"].

Definition no_models_key_backend : backend :=
  fun _ _ => Responded no_models_key_response.

Definition prompt_request : gmap string pyval :=
  {[ "model" := PStr "llama3.1:8b"; "prompt" := PStr "hello" ]}.

(** * Properties *)

(** Unfolds the monad down to functions on traces. *)
Ltac run_M :=
  unfold try_except, mbind, M_bind, bind, mret, M_ret, ret, raise,
    http_post, http_get, http_request, response_json in *.

(** Splits on which optional fields of a request are truthy. *)
Ltac split_request request :=
  unfold build_ollama_request;
  destruct (options request) as [o|], (tools request) as [[|t ts]|],
    (keep_alive request) as [[|a k]|]; cbn;
  try destruct (bool_decide (o = ∅)); cbn.

(** ** Reshaping a message *)

Section Reshaper.

Lemma convert_tool_calls_map (tcs : list ToolCall) :
  convert_tool_calls tcs
  = (fun tc => PDict {[ "function" := PDict (function tc) ]}) <$> tcs.
Proof. induction tcs as [|tc tcs IH]; [done|]. cbn. by rewrite IH. Qed.

Lemma format_messages_map (msgs : list ChatMessage) :
  format_messages msgs
  = (fun m => PDict (format_message_for_ollama m)) <$> msgs.
Proof. induction msgs as [|m msgs IH]; [done|]. cbn. by rewrite IH. Qed.

Context (message : ChatMessage).

(** Claim C1.  For every chat message, the reshaped message carries the
    [role] key, it is never without both [content] and [tool_calls], and
    when the message has neither content nor tool calls (absent or empty)
    the reshaped message has [content] set to the empty string. *)
Theorem format_message_never_bare :
  format_message_for_ollama message !! "role" = Some (PStr (role message))
  ∧ ¬ (format_message_for_ollama message !! "content" = None
       ∧ format_message_for_ollama message !! "tool_calls" = None)
  ∧ (truthy_str (content message) = false →
     truthy_list (tool_calls message) = false →
     format_message_for_ollama message !! "content" = Some (PStr "")).
Proof.
  destruct message as [r [[|a s]|] [[|tc tcs]|]]; cbn;
    (split; [by simplify_map_eq|]);
    (split; [intros [Hc Ht]; by simplify_map_eq|]);
    intros Hc Ht; by simplify_map_eq.
Qed.

(** Claim C4.  A message whose content is empty and whose tool-call list
    is not is reshaped into exactly [role] and [tool_calls]: no [content]
    key, and a [tool_calls] list of the same length whose i-th element is
    the one-key dictionary holding the i-th tool call's [function]. *)
Theorem format_message_tool_calls_only (tcs : list ToolCall) :
  truthy_str (content message) = false →
  tool_calls message = Some tcs →
  tcs ≠ [] →
  format_message_for_ollama message !! "content" = None
  ∧ dom (format_message_for_ollama message)
    = ({[ "role"; "tool_calls" ]} : gset string)
  ∧ ∃ out : list pyval,
      format_message_for_ollama message !! "tool_calls" = Some (PList out)
      ∧ length out = length tcs
      ∧ ∀ (i : nat) (tc : ToolCall),
          tcs !! i = Some tc →
          out !! i = Some (PDict {[ "function" := PDict (function tc) ]}).
Proof.
  destruct message as [r c t]; cbn. intros Hc -> Hne.
  destruct tcs as [|tc0 tcs']; [done|].
  assert (Hshape :
    format_message_for_ollama (mkChatMessage r c (Some (tc0 :: tcs')))
    = <[ "tool_calls" := PList (convert_tool_calls (tc0 :: tcs')) ]>
        {[ "role" := PStr r ]}).
  { unfold format_message_for_ollama; cbn [content tool_calls role].
    rewrite Hc. destruct c as [[|a s]|]; done. }
  rewrite Hshape. split; [by simplify_map_eq|]. split.
  { rewrite dom_insert_L, dom_singleton_L. set_solver. }
  exists (convert_tool_calls (tc0 :: tcs')). split; [by simplify_map_eq|].
  rewrite convert_tool_calls_map. split; [by rewrite length_fmap|].
  intros i tc Hi. by rewrite list_lookup_fmap, Hi.
Qed.

End Reshaper.

Lemma format_message_tool_calls_only_witness :
  (truthy_str (content tool_call_message) = false
   ∧ tool_calls tool_call_message = Some [calculator_call]
   ∧ [calculator_call] ≠ [])
  ∧ format_message_for_ollama tool_call_message !! "content" = None.
Proof.
  split.
  - split; [reflexivity|]. split; [reflexivity|discriminate].
  - apply (format_message_tool_calls_only tool_call_message [calculator_call]);
      [reflexivity | reflexivity | discriminate].
Defined.

(** ** Constructing a message *)

(** Claim C8.  A chat message constructed with neither [content] nor
    [tool_calls] has the empty string as content, and no constructed chat
    message has both fields absent. *)
Theorem ChatMessage_init_fills_content (r : string) :
  content (ChatMessage_init r None None) = Some ""
  ∧ ∀ (c : option string) (tcs : option (list ToolCall)),
      ¬ (content (ChatMessage_init r c tcs) = None
         ∧ tool_calls (ChatMessage_init r c tcs) = None).
Proof.
  split; [reflexivity|].
  intros c tcs [Hc Ht]. unfold ChatMessage_init in *.
  destruct c as [[|a s]|], tcs as [[|tc l]|]; cbn in *; discriminate.
Qed.

(** Construction changes nothing but a missing content. *)
Lemma ChatMessage_init_keeps (r : string) (c : option string)
    (tcs : option (list ToolCall)) :
  role (ChatMessage_init r c tcs) = r
  ∧ tool_calls (ChatMessage_init r c tcs) = tcs
  ∧ (content (ChatMessage_init r c tcs) = c
     ∨ content (ChatMessage_init r c tcs) = Some "").
Proof.
  unfold ChatMessage_init. cbn.
  destruct (negb (truthy_str c) && negb (truthy_list tcs)); cbn; auto.
Qed.

(** ** The dictionary of lines 202-214 *)

Section OllamaRequest.

Context (request : ChatRequest).

Lemma build_ollama_request_mandatory :
  build_ollama_request request !! "model" = Some (PStr (model request))
  ∧ build_ollama_request request !! "messages"
    = Some (PList (format_messages (messages request)))
  ∧ build_ollama_request request !! "stream"
    = Some (PBool (stream_or_False (stream request))).
Proof. split_request request; by simplify_map_eq. Qed.

Lemma build_ollama_request_optional :
  build_ollama_request request !! "options"
  = (if truthy_dict (options request)
     then PDict <$> options request else None)
  ∧ build_ollama_request request !! "tools"
    = (if truthy_list (tools request)
       then (fun ts => PList (PDict <$> ts)) <$> tools request else None)
  ∧ build_ollama_request request !! "keep_alive"
    = (if truthy_str (keep_alive request)
       then PStr <$> keep_alive request else None).
Proof. split_request request; by simplify_map_eq. Qed.

Lemma build_ollama_request_dom :
  dom (build_ollama_request request)
  = ({[ "model"; "messages"; "stream" ]}
     ∪ (if truthy_dict (options request) then {[ "options" ]} else ∅)
     ∪ (if truthy_list (tools request) then {[ "tools" ]} else ∅)
     ∪ (if truthy_str (keep_alive request) then {[ "keep_alive" ]} else ∅)
     : gset string).
Proof.
  split_request request; rewrite ?dom_insert_L, dom_singleton_L; set_solver.
Qed.

End OllamaRequest.

(** ** Chat completion *)

Section ChatCompletion.

Context (be : backend) (request : ChatRequest) (tr : list http_call).

(** The one call [chat_completion] makes. *)
Local Abbreviation sent :=
  (Post chat_url (PDict (build_ollama_request request))).

(** Whatever the backend answers, [chat_completion] calls it exactly once,
    with the dictionary of lines 202-214. *)
Lemma chat_completion_trace :
  (chat_completion be request tr).2 = (tr ++ [sent])%list.
Proof.
  unfold chat_completion. run_M.
  destruct (be tr _) as [r|e]; cbn.
  - destruct (resp_status_code r =? 200)%Z; cbn; [|done].
    destruct (stream_or_False (stream request)); [done|].
    destruct (resp_json r); done.
  - destruct e; done.
Qed.

(** Claim C3.  The dictionary [chat_completion] posts to the backend has
    the keys [model], [messages] and [stream], the messages being the
    reshaped input messages in input order, and has [options], [tools] and
    [keep_alive] exactly when the request's field is present and truthy;
    a key that is left out is absent from the dictionary, not null. *)
Theorem chat_completion_backend_request :
  ∃ d : gmap string pyval,
    (chat_completion be request tr).2 = (tr ++ [Post chat_url (PDict d)])%list
    ∧ dom d
      = ({[ "model"; "messages"; "stream" ]}
         ∪ (if truthy_dict (options request) then {[ "options" ]} else ∅)
         ∪ (if truthy_list (tools request) then {[ "tools" ]} else ∅)
         ∪ (if truthy_str (keep_alive request) then {[ "keep_alive" ]} else ∅)
         : gset string)
    ∧ d !! "model" = Some (PStr (model request))
    ∧ d !! "messages"
      = Some (PList ((fun m => PDict (format_message_for_ollama m))
                       <$> messages request))
    ∧ (∃ b : bool, d !! "stream" = Some (PBool b))
    ∧ d !! "options"
      = (if truthy_dict (options request)
         then PDict <$> options request else None)
    ∧ d !! "tools"
      = (if truthy_list (tools request)
         then (fun ts => PList (PDict <$> ts)) <$> tools request else None)
    ∧ d !! "keep_alive"
      = (if truthy_str (keep_alive request)
         then PStr <$> keep_alive request else None).
Proof.
  exists (build_ollama_request request).
  destruct (build_ollama_request_mandatory request) as (Hmodel & Hmsgs & Hstream).
  destruct (build_ollama_request_optional request) as (Hopt & Htools & Hka).
  split; [apply chat_completion_trace|].
  split; [apply build_ollama_request_dom|].
  split; [done|].
  split; [by rewrite Hmsgs, format_messages_map|].
  split; [by eexists|].
  done.
Qed.

(** Claim C10.  When the request's [stream] field is null, or absent and
    so defaulted to false, the dictionary posted to the backend has
    [stream] set to the boolean false, never to null. *)
Theorem chat_completion_stream_never_null :
  stream request = None ∨ stream request = Some false →
  ∃ d : gmap string pyval,
    (chat_completion be request tr).2 = (tr ++ [Post chat_url (PDict d)])%list
    ∧ d !! "stream" = Some (PBool false).
Proof.
  intros Hs. exists (build_ollama_request request).
  split; [apply chat_completion_trace|].
  destruct (build_ollama_request_mandatory request) as (_ & _ & ->).
  by destruct Hs as [-> | ->].
Qed.


(** A body that is not a JSON document is one more unexpected failure. *)
Lemma chat_completion_undecodable_body (r : Response) :
  be tr sent = Responded r →
  resp_status_code r = 200 →
  stream_or_False (stream request) = false →
  resp_json r = None →
  (chat_completion be request tr).1
  = Raise (HTTPException 500 ("Internal server error: " ++ resp_json_error r)).
Proof.
  intros Hbe Hst Hs Hj. unfold chat_completion. run_M.
  by rewrite Hbe, Hst, Hs, Hj.
Qed.

(** A body that is one is handed back as it was decoded. *)
Lemma chat_completion_buffered (r : Response) (v : pyval) :
  be tr sent = Responded r →
  resp_status_code r = 200 →
  stream_or_False (stream request) = false →
  resp_json r = Some v →
  (chat_completion be request tr).1 = Ok (JSONDocument v).
Proof.
  intros Hbe Hst Hs Hj. unfold chat_completion. run_M.
  by rewrite Hbe, Hst, Hs, Hj.
Qed.

(** The [HTTPException] raised at lines 230-233 is raised inside the [try]
    block, and [HTTPException] is an [Exception]: the last handler
    (lines 265-267) catches it and raises a 500 in its place. *)
Lemma chat_completion_not_200 (r : Response) :
  be tr sent = Responded r →
  resp_status_code r ≠ 200 →
  (chat_completion be request tr).1
  = Raise (HTTPException 500
             ("Internal server error: "
              ++ str_exn (HTTPException (resp_status_code r)
                            ("Ollama request failed: " ++ resp_text r)))).
Proof.
  intros Hbe Hst. unfold chat_completion. run_M. rewrite Hbe.
  apply Z.eqb_neq in Hst. by rewrite Hst.
Qed.

Lemma stream_response_filter (chunks : list string) :
  stream_response chunks
  = add_LF <$> filter (fun chunk : string => chunk ≠ "") chunks.
Proof.
  induction chunks as [|chunk rest IH]; [done|].
  cbn [stream_response]. rewrite IH.
  destruct chunk as [|a chunk]; cbn [truthy_str].
  - by rewrite filter_cons_False by (intros H; by apply H).
  - by rewrite filter_cons_True by done.
Qed.

(** Claim C5, as amended.  When the request asks for a stream and the
    backend answers 200, the relay yields every non-empty line the backend
    emitted, in arrival order, each followed by a line feed and otherwise
    unchanged; empty lines are skipped. *)
Theorem chat_completion_stream_relay (r : Response) :
  stream request = Some true →
  be tr sent = Responded r →
  resp_status_code r = 200 →
  (chat_completion be request tr).1
  = Ok (StreamingResponse
          (add_LF <$> filter (fun chunk : string => chunk ≠ "") (resp_lines r))
          "application/x-ndjson").
Proof.
  intros Hs Hbe Hst. unfold chat_completion. run_M.
  rewrite Hbe, Hst, Hs. cbn. by rewrite stream_response_filter.
Qed.

End ChatCompletion.

Lemma chat_completion_stream_never_null_witness :
  stream (hello_request None) = None
  ∧ ∃ d : gmap string pyval,
      (chat_completion refusing_backend (hello_request None) []).2
      = [Post chat_url (PDict d)]
      ∧ d !! "stream" = Some (PBool false).
Proof.
  split; [reflexivity|].
  apply (chat_completion_stream_never_null refusing_backend
           (hello_request None) []).
  left; reflexivity.
Defined.


(** Claim C2, evaluated.  The backend answers 404 with the body
    "model not found"; the caller of [chat_completion] gets status 500,
    not 404. *)
Theorem chat_completion_404_becomes_500 :
  resp_status_code missing_model_response = 404
  ∧ (chat_completion missing_model_backend (hello_request (Some false)) []).1
    = Raise (HTTPException 500
               "Internal server error: 404: Ollama request failed: model not found").
Proof. split; vm_compute; reflexivity. Qed.

Lemma chat_completion_stream_relay_witness :
  stream (hello_request (Some true)) = Some true
  ∧ (chat_completion two_documents_backend (hello_request (Some true)) []).1
    = Ok (StreamingResponse ["{a:1}" ++ LF; "{b:2}" ++ LF]
            "application/x-ndjson").
Proof.
  split; [reflexivity|].
  exact (chat_completion_stream_relay two_documents_backend
           (hello_request (Some true)) [] two_documents_response
           eq_refl eq_refl eq_refl).
Defined.

(** Claim C5 as stated fails: of the three lines the backend emits, the
    empty one is dropped and the caller receives two. *)
Lemma chat_completion_stream_drops_blank_line :
  resp_lines blank_line_response = ["first"; ""; "second"]
  ∧ (chat_completion blank_line_backend (hello_request (Some true)) []).1
    = Ok (StreamingResponse ["first" ++ LF; "second" ++ LF]
            "application/x-ndjson")
  ∧ (chat_completion blank_line_backend (hello_request (Some true)) []).1
    ≠ Ok (StreamingResponse (add_LF <$> resp_lines blank_line_response)
            "application/x-ndjson").
Proof.
  split; [reflexivity|]. split; [reflexivity|]. vm_compute. discriminate.
Qed.

(** ** Model information *)

(** Claim C9.  When the backend answers the model-detail call with 404,
    [get_model_info] raises a 404 whose detail names the model; any other
    answer that is not 200 makes it raise a 500. *)
Theorem get_model_info_not_200 (be : backend) (model_name : string)
    (tr : list http_call) (r : Response) :
  be tr (Post show_url (PDict {[ "name" := PStr model_name ]})) = Responded r →
  resp_status_code r ≠ 200 →
  (get_model_info be model_name tr).1
  = Raise (if (resp_status_code r =? 404)%Z
           then HTTPException 404 ("Model '" ++ model_name ++ "' not found")
           else HTTPException 500
                  ("Failed to get model info: " ++ pretty (resp_status_code r))).
Proof.
  intros Hbe Hst. unfold get_model_info. run_M. rewrite Hbe.
  apply Z.eqb_neq in Hst. rewrite Hst.
  by destruct (resp_status_code r =? 404)%Z.
Qed.

Lemma get_model_info_not_200_witness :
  resp_status_code missing_model_response ≠ 200
  ∧ (get_model_info missing_model_backend "foo" []).1
    = Raise (HTTPException 404 "Model 'foo' not found").
Proof.
  split; [discriminate|].
  apply (get_model_info_not_200 missing_model_backend "foo" []
           missing_model_response); [reflexivity | discriminate].
Defined.

(** ** Health *)

Section Health.

Context (be : backend) (tr : list http_call).

Lemma validate_str_list_strings (names : list string) (t : list http_call) :
  validate_str_list (PStr <$> names) t = (Ok names, t).
Proof.
  induction names as [|n names IH]; [done|].
  cbn. run_M. by rewrite IH.
Qed.

(** The comprehension of line 111 makes no call. *)
Lemma model_names_pure (ms : list pyval) (t : list http_call) :
  (model_names ms t).2 = t.
Proof.
  induction ms as [|m ms IH]; [done|].
  cbn. run_M. unfold subscript_name.
  destruct m; cbn; try done.
  destruct (d !! "name"); cbn; [|done].
  destruct (model_names ms t) as [[ns|e] t'] eqn:E; cbn in *; done.
Qed.

(** [check_ollama_health] returns, whatever the backend does, after one
    call; its status is "healthy" or it is the "unhealthy" report with no
    models, and it is the latter when the backend did not answer 200. *)
Lemma check_ollama_health_returns :
  ∃ h : OllamaHealth,
    check_ollama_health be tr = (Ok h, (tr ++ [Get tags_url])%list)
    ∧ (health_status h = "healthy" ∨ h = mkOllamaHealth "unhealthy" [])
    ∧ (match be tr (Get tags_url) with
       | Responded r => resp_status_code r ≠ 200
       | Failed _ => True
       end → h = mkOllamaHealth "unhealthy" []).
Proof.
  unfold check_ollama_health. run_M.
  destruct (be tr (Get tags_url)) as [r|e]; cbn.
  2: { eexists; split; [done|]. split; [by right|done]. }
  destruct (resp_status_code r =? 200)%Z eqn:Hst; cbn.
  2: { eexists; split; [done|]. split; [by right|done]. }
  apply Z.eqb_eq in Hst.
  assert (Hbad : ∃ h : OllamaHealth,
    (@Ok OllamaHealth (mkOllamaHealth "unhealthy" []),
     (tr ++ [Get tags_url])%list)
    = (Ok h, (tr ++ [Get tags_url])%list)
    ∧ (health_status h = "healthy" ∨ h = mkOllamaHealth "unhealthy" [])
    ∧ (resp_status_code r ≠ 200 → h = mkOllamaHealth "unhealthy" [])).
  { eexists; split; [done|]. split; [by right|done]. }
  destruct (resp_json r) as [models_data|]; cbn; [|done].
  unfold get_models. destruct models_data; cbn; try done.
  unfold py_iter.
  destruct (default (PList []) (d !! "models")) as [| | | |s|l|d']; cbn;
    try done.
  all: match goal with
       | |- context [model_names ?ms ?t] =>
           pose proof (model_names_pure ms t) as Hpure;
           destruct (model_names ms t) as [[ns|e] tr'] eqn:E;
           cbn in Hpure; subst tr'; cbn; [|done]
       end.
  all: eexists; split; [done|]; split; [by left|done].
Qed.

(** What does hold of the health check.  Whatever the backend does, the
    backend check returns a report and does not raise.  When the backend
    answers with a status other than 200, or the call fails, the report
    is "unhealthy"
    with no models and [/health] answers "degraded".  When every model
    name of the report is a string, [/health] answers "healthy" if the
    report is "healthy" and "degraded" otherwise.  Whenever [/health]
    answers, its status is "healthy" exactly when the report is, and
    "degraded" otherwise; it is never "unhealthy". *)
Theorem health_check_reports (now : string) :
  ∃ h : OllamaHealth,
    check_ollama_health be tr = (Ok h, (tr ++ [Get tags_url])%list)
    ∧ (match be tr (Get tags_url) with
       | Responded r => resp_status_code r ≠ 200
       | Failed _ => True
       end →
       h = mkOllamaHealth "unhealthy" []
       ∧ (health_check be now tr).1
         = Ok (mkHealthResponse "degraded" now "unhealthy" []))
    ∧ (∀ names : list string,
         health_models h = PStr <$> names →
         (health_check be now tr).1
         = Ok (mkHealthResponse
                 (if String.eqb (health_status h) "healthy"
                  then "healthy" else "degraded")
                 now (health_status h) names))
    ∧ (∀ resp : HealthResponse,
         (health_check be now tr).1 = Ok resp →
         status resp ≠ "unhealthy"
         ∧ ollama_status resp = health_status h
         ∧ (status resp = "healthy" ↔ health_status h = "healthy")
         ∧ (status resp = "degraded" ↔ health_status h ≠ "healthy")).
Proof.
  destruct check_ollama_health_returns as (h & Hrun & Hshape & Hbad).
  exists h. split; [done|].
  assert (Hnames : ∀ names : list string,
    health_models h = PStr <$> names →
    (health_check be now tr).1
    = Ok (mkHealthResponse
            (if String.eqb (health_status h) "healthy"
             then "healthy" else "degraded")
            now (health_status h) names)).
  { intros names Hn. unfold health_check, HealthResponse_init. run_M.
    rewrite Hrun, Hn, validate_str_list_strings. done. }
  split; [|split; [done|]].
  - intros Hout. specialize (Hbad Hout). subst h. split; [done|].
    by rewrite (Hnames []).
  - intros resp Hresp. unfold health_check, HealthResponse_init in Hresp.
    run_M. rewrite Hrun in Hresp.
    destruct (validate_str_list (health_models h) _) as [[ms|e] tr'];
      cbn in Hresp; [|done].
    injection Hresp as <-. cbn.
    destruct (String.eqb_spec (health_status h) "healthy") as [Heq|Hneq].
    + split; [done|]. split; [done|]. split; [done|].
      split; [done|]. intros Hn; by destruct Hn.
    + split; [done|]. split; [done|]. split; [|done].
      split; [done|]. intros Heq; by destruct Hneq.
Qed.

End Health.

(** Claim C7, evaluated.  The backend answers 200 and lists a model
    whose name is null: the backend check reports "healthy", and
    [/health] raises instead of answering, because the model list of its
    response admits strings only.  Nothing between the check and the
    construction of the response guards against such a name. *)
Lemma health_check_raises_on_null_name :
  resp_status_code unnamed_model_response = 200
  ∧ (check_ollama_health unnamed_model_backend []).1
    = Ok (mkOllamaHealth "healthy" [PNone])
  ∧ (health_check unnamed_model_backend "2025-01-01T00:00:00" []).1
    = Raise (ValidationError "Input should be a valid string").
Proof. split; [|split]; vm_compute; reflexivity. Qed.

(** The neighbouring case: an entry with no name at all makes the
    comprehension raise inside the check, and [/health] answers. *)
Example health_check_nameless_entry_degrades :
  (health_check nameless_entry_backend "2025-01-01T00:00:00" []).1
  = Ok (mkHealthResponse "degraded" "2025-01-01T00:00:00" "unhealthy" []).
Proof. vm_compute; reflexivity. Qed.

(** With the backend down, [/health] still answers. *)
Example health_check_backend_down :
  health_check refusing_backend "2025-01-01T00:00:00" []
  = (Ok (mkHealthResponse "degraded" "2025-01-01T00:00:00" "unhealthy" []),
     [Get tags_url]).
Proof. reflexivity. Qed.

(** * Further properties of the service *)

(** ** The reshaper on every message *)

Section ReshaperShape.

Context (message : ChatMessage).

(** The reshaped message has the key [role], the key [content] when the
    content is non-empty or there are no tool calls, the key [tool_calls]
    when there are tool calls, and no other key. *)
Theorem format_message_keys :
  dom (format_message_for_ollama message)
  = ({[ "role" ]}
     ∪ (if truthy_str (content message)
           || negb (truthy_list (tool_calls message))
        then {[ "content" ]} else ∅)
     ∪ (if truthy_list (tool_calls message) then {[ "tool_calls" ]} else ∅)
     : gset string).
Proof.
  destruct message as [r [[|a s]|] [[|tc tcs]|]]; cbn;
    rewrite ?dom_insert_L, dom_singleton_L; set_solver.
Qed.

(** A non-empty content is passed on unchanged whether or not tool calls
    come with it, and the tool calls are converted whether or not a
    content comes with them; an empty list of tool calls gives no
    [tool_calls] key. *)
Theorem format_message_values :
  format_message_for_ollama message !! "content"
  = (if truthy_str (content message) then PStr <$> content message
     else if truthy_list (tool_calls message) then None
     else Some (PStr ""))
  ∧ format_message_for_ollama message !! "tool_calls"
    = (if truthy_list (tool_calls message)
       then (fun tcs =>
               PList ((fun tc => PDict {[ "function" := PDict (function tc) ]})
                        <$> tcs))
            <$> tool_calls message
       else None).
Proof.
  destruct message as [r [[|a s]|] [[|tc tcs]|]]; cbn;
    rewrite ?convert_tool_calls_map; split; by simplify_map_eq.
Qed.

End ReshaperShape.

(** The default filled in by the constructor does not change what is sent:
    a message reshaped after construction is the message reshaped from the
    fields as given. *)
Theorem format_message_after_init (r : string) (c : option string)
    (tcs : option (list ToolCall)) :
  format_message_for_ollama (ChatMessage_init r c tcs)
  = format_message_for_ollama (mkChatMessage r c tcs).
Proof. by destruct c as [[|a s]|], tcs as [[|tc l]|]. Qed.

(** Construction never touches [role] or [tool_calls], and replaces
    [content] only when it is absent and there is no tool call; an absent
    content stays absent beside tool calls. *)
Theorem ChatMessage_init_fields (r : string) (c : option string)
    (tcs : option (list ToolCall)) :
  role (ChatMessage_init r c tcs) = r
  ∧ tool_calls (ChatMessage_init r c tcs) = tcs
  ∧ content (ChatMessage_init r c tcs)
    = match c with
      | Some _ => c
      | None => if truthy_list tcs then None else Some ""
      end.
Proof. by destruct c as [[|a s]|], tcs as [[|tc l]|]. Qed.

(** ** The generator of the relay *)

(** Relaying is line by line: the chunks for two batches of lines are the
    chunks of the first followed by the chunks of the second. *)
Theorem stream_response_app (lines1 lines2 : list string) :
  stream_response (lines1 ++ lines2)%list
  = (stream_response lines1 ++ stream_response lines2)%list.
Proof.
  induction lines1 as [|chunk rest IH]; [done|].
  cbn [stream_response app]. rewrite IH.
  by destruct (truthy_str (Some chunk)).
Qed.

(** The chunks are exactly the non-empty lines with a line feed appended:
    no chunk is made up, and there are never more chunks than lines. *)
Theorem stream_response_chunks (lines : list string) :
  (∀ chunk : string,
     chunk ∈ stream_response lines
     ↔ ∃ line : string, line ∈ lines ∧ line ≠ "" ∧ chunk = line ++ LF)
  ∧ (length (stream_response lines) ≤ length lines)%nat.
Proof.
  rewrite stream_response_filter. split.
  - intros chunk. rewrite list_elem_of_fmap. split.
    + intros (line & -> & Hin). apply list_elem_of_filter in Hin as [Hne Hin].
      by exists line.
    + intros (line & Hin & Hne & ->). exists line. split; [done|].
      by apply list_elem_of_filter.
  - rewrite length_fmap. apply length_filter.
Qed.

(** ** More on chat completion *)

Lemma filter_nonempty_all (lines : list string) :
  Forall (fun line : string => line ≠ "") lines →
  filter (fun chunk : string => chunk ≠ "") lines = lines.
Proof.
  induction 1 as [|line rest Hne _ IH]; [done|].
  by rewrite filter_cons_True, IH.
Qed.

Section ChatCompletionMore.

Context (be : backend) (request : ChatRequest) (tr : list http_call).

Local Abbreviation sent :=
  (Post chat_url (PDict (build_ollama_request request))).

(** When the backend emits no empty line, a streamed answer carries every
    line, in order, each followed by a line feed. *)
Theorem chat_completion_stream_all_lines (r : Response) :
  stream request = Some true →
  be tr sent = Responded r →
  resp_status_code r = 200 →
  Forall (fun line : string => line ≠ "") (resp_lines r) →
  chat_completion be request tr
  = (Ok (StreamingResponse (add_LF <$> resp_lines r) "application/x-ndjson"),
     (tr ++ [sent])%list).
Proof.
  intros Hs Hbe Hst Hall. unfold chat_completion. run_M.
  rewrite Hbe, Hst, Hs. cbn.
  by rewrite stream_response_filter, filter_nonempty_all.
Qed.

(** The [stream] key sent to the backend is true exactly when the
    request's flag is true. *)
Theorem chat_completion_stream_flag :
  ∃ d : gmap string pyval,
    (chat_completion be request tr).2 = (tr ++ [Post chat_url (PDict d)])%list
    ∧ (d !! "stream" = Some (PBool true) ↔ stream request = Some true).
Proof.
  exists (build_ollama_request request).
  split; [apply chat_completion_trace|].
  destruct (build_ollama_request_mandatory request) as (_ & _ & ->).
  destruct (stream request) as [[|]|]; cbn; split; intros H; by simplify_eq.
Qed.

(** Whatever goes wrong, what leaves [chat_completion] is an
    [HTTPException]: no other exception reaches the framework. *)
Theorem chat_completion_raises_HTTPException :
  match (chat_completion be request tr).1 with
  | Ok _ => True
  | Raise e => isinstance_HTTPException e = true
  end.
Proof.
  unfold chat_completion. run_M.
  destruct (be tr _) as [r|e]; cbn.
  - destruct (resp_status_code r =? 200)%Z; cbn; [|done].
    destruct (stream_or_False (stream request)); [done|].
    by destruct (resp_json r).
  - by destruct e.
Qed.

(** A 200 answer whose body is not a JSON document fails a buffered
    request with a 500 whose detail is "Internal server error: " followed
    by the text of the decoding error. *)
Theorem chat_completion_buffered_not_json (r : Response) :
  be tr sent = Responded r →
  resp_status_code r = 200 →
  stream_or_False (stream request) = false →
  resp_json r = None →
  chat_completion be request tr
  = (Raise (HTTPException 500
              ("Internal server error: " ++ resp_json_error r)),
     (tr ++ [sent])%list).
Proof.
  intros Hbe Hst Hs Hj. unfold chat_completion. run_M.
  by rewrite Hbe, Hst, Hs, Hj.
Qed.

(** A 200 answer that is a JSON document is handed back to a buffered
    request exactly as decoded, after one call. *)
Theorem chat_completion_buffered_document (r : Response) (v : pyval) :
  be tr sent = Responded r →
  resp_status_code r = 200 →
  stream_or_False (stream request) = false →
  resp_json r = Some v →
  chat_completion be request tr = (Ok (JSONDocument v), (tr ++ [sent])%list).
Proof.
  intros Hbe Hst Hs Hj. unfold chat_completion. run_M.
  by rewrite Hbe, Hst, Hs, Hj.
Qed.

End ChatCompletionMore.

Lemma chat_completion_stream_all_lines_witness :
  (stream (hello_request (Some true)) = Some true
   ∧ Forall (fun line : string => line ≠ "") (resp_lines two_documents_response))
  ∧ (chat_completion two_documents_backend (hello_request (Some true)) []).1
    = Ok (StreamingResponse ["{a:1}" ++ LF; "{b:2}" ++ LF]
            "application/x-ndjson").
Proof.
  assert (Hall : Forall (fun line : string => line ≠ "")
                   (resp_lines two_documents_response)).
  { repeat constructor; discriminate. }
  split; [split; [reflexivity | exact Hall]|].
  exact (f_equal fst
           (chat_completion_stream_all_lines two_documents_backend
              (hello_request (Some true)) [] two_documents_response
              eq_refl eq_refl eq_refl Hall)).
Defined.

Lemma chat_completion_buffered_document_witness :
  (resp_status_code answer_response = 200
   ∧ resp_json answer_response = Some answer_document)
  ∧ (chat_completion answering_backend (hello_request (Some false)) []).1
    = Ok (JSONDocument answer_document).
Proof.
  split; [split; reflexivity|].
  exact (f_equal fst
           (chat_completion_buffered_document answering_backend
              (hello_request (Some false)) [] answer_response answer_document
              eq_refl eq_refl eq_refl eq_refl)).
Defined.

Lemma chat_completion_buffered_not_json_witness :
  (resp_status_code two_documents_response = 200
   ∧ resp_json two_documents_response = None)
  ∧ (chat_completion two_documents_backend (hello_request None) []).1
    = Raise (HTTPException 500
               "Internal server error: Expecting property name enclosed in double quotes: line 1 column 2 (char 1)").
Proof.
  split; [split; reflexivity|].
  exact (f_equal fst
           (chat_completion_buffered_not_json two_documents_backend
              (hello_request None) [] two_documents_response
              eq_refl eq_refl eq_refl eq_refl)).
Defined.

(** ** Listing the models *)

Section ListModels.

Context (be : backend) (tr : list http_call).

(** A 200 answer that is a JSON document is returned as decoded. *)
Theorem list_models_document (r : Response) (v : pyval) :
  be tr (Get tags_url) = Responded r →
  resp_status_code r = 200 →
  resp_json r = Some v →
  list_models be tr = (Ok v, (tr ++ [Get tags_url])%list).
Proof.
  intros Hbe Hst Hj. unfold list_models. run_M.
  by rewrite Hbe, Hst, Hj.
Qed.

(** A request error is answered with 503, and so is a timeout: unlike
    [chat_completion], this endpoint has no 504. *)
Theorem list_models_request_error (msg : string) (e : exn) :
  e = TimeoutException msg ∨ e = RequestError msg →
  be tr (Get tags_url) = Failed e →
  list_models be tr
  = (Raise (HTTPException 503 "Unable to connect to Ollama service"),
     (tr ++ [Get tags_url])%list).
Proof.
  intros He Hbe. unfold list_models. run_M. rewrite Hbe.
  by destruct He as [-> | ->].
Qed.

(** Any answer other than 200 is turned into a 500: the exception raised
    for it inside the [try] block is caught by the last handler, which
    puts its text in the detail. *)
Theorem list_models_not_200 (r : Response) :
  be tr (Get tags_url) = Responded r →
  resp_status_code r ≠ 200 →
  list_models be tr
  = (Raise (HTTPException 500
              (str_exn (HTTPException 500
                          ("Failed to fetch models: "
                           ++ pretty (resp_status_code r))))),
     (tr ++ [Get tags_url])%list).
Proof.
  intros Hbe Hst. unfold list_models. run_M. rewrite Hbe.
  apply Z.eqb_neq in Hst. by rewrite Hst.
Qed.

(** Whatever the backend does, [list_models] returns or raises a 503 or
    a 500, nothing else. *)
Theorem list_models_raises_503_or_500 :
  match (list_models be tr).1 with
  | Ok _ => True
  | Raise e =>
      ∃ detail : string,
        e = HTTPException 503 detail ∨ e = HTTPException 500 detail
  end.
Proof.
  unfold list_models. run_M.
  destruct (be tr _) as [r|e]; cbn.
  - destruct (resp_status_code r =? 200)%Z; cbn; [|by eauto].
    destruct (resp_json r); cbn; [done|by eauto].
  - destruct e; cbn; by eauto.
Qed.

End ListModels.

Lemma list_models_document_witness :
  resp_status_code two_models_response = 200
  ∧ (list_models two_models_backend []).1
    = Ok (PDict {[ "models" := PList two_models_entries ]}).
Proof.
  split; [reflexivity|].
  exact (f_equal fst
           (list_models_document two_models_backend [] two_models_response
              (PDict {[ "models" := PList two_models_entries ]})
              eq_refl eq_refl eq_refl)).
Defined.

Lemma list_models_request_error_witness :
  slow_backend [] (Get tags_url) = Failed (TimeoutException "timed out")
  ∧ (list_models slow_backend []).1
    = Raise (HTTPException 503 "Unable to connect to Ollama service").
Proof.
  split; [reflexivity|].
  exact (f_equal fst
           (list_models_request_error slow_backend [] "timed out"
              (TimeoutException "timed out") (or_introl eq_refl) eq_refl)).
Defined.

Lemma list_models_not_200_witness :
  resp_status_code missing_model_response ≠ 200
  ∧ ∃ detail : string,
      (list_models missing_model_backend []).1
      = Raise (HTTPException 500 detail).
Proof.
  assert (Hne : resp_status_code missing_model_response ≠ 200)
    by discriminate.
  split; [exact Hne|]. eexists.
  exact (f_equal fst
           (list_models_not_200 missing_model_backend []
              missing_model_response eq_refl Hne)).
Defined.

(** ** More on model information *)

Section ModelInfoMore.

Context (be : backend) (model_name : string) (tr : list http_call).

Local Abbreviation asked :=
  (Post show_url (PDict {[ "name" := PStr model_name ]})).

(** A 200 answer that is a JSON document is returned as decoded; the
    backend was asked once, for exactly that model name. *)
Theorem get_model_info_document (r : Response) (v : pyval) :
  be tr asked = Responded r →
  resp_status_code r = 200 →
  resp_json r = Some v →
  get_model_info be model_name tr = (Ok v, (tr ++ [asked])%list).
Proof.
  intros Hbe Hst Hj. unfold get_model_info. run_M.
  by rewrite Hbe, Hst, Hj.
Qed.

(** When the call itself fails, timeout and connection failure included,
    the caller gets a 500 whose detail is the text of the failure: this
    endpoint has neither 503 nor 504. *)
Theorem get_model_info_call_failure (e : exn) :
  isinstance_HTTPException e = false →
  be tr asked = Failed e →
  get_model_info be model_name tr
  = (Raise (HTTPException 500 (str_exn e)), (tr ++ [asked])%list).
Proof.
  intros He Hbe. unfold get_model_info. run_M. rewrite Hbe. cbn.
  by rewrite He.
Qed.

(** As long as the HTTP client raises errors of its own only,
    [get_model_info] returns or raises a 404 or a 500, nothing else. *)
Theorem get_model_info_raises_404_or_500 :
  (∀ e : exn, be tr asked = Failed e → isinstance_HTTPException e = false) →
  match (get_model_info be model_name tr).1 with
  | Ok _ => True
  | Raise e =>
      ∃ detail : string,
        e = HTTPException 404 detail ∨ e = HTTPException 500 detail
  end.
Proof.
  intros Hclient. unfold get_model_info. run_M.
  destruct (be tr _) as [r|e] eqn:Hbe; cbn.
  - destruct (resp_status_code r =? 200)%Z; cbn.
    + destruct (resp_json r); cbn; [done|by eauto].
    + destruct (resp_status_code r =? 404)%Z; cbn; by eauto.
  - rewrite (Hclient e eq_refl). cbn. eauto.
Qed.

End ModelInfoMore.

Lemma get_model_info_document_witness :
  resp_status_code answer_response = 200
  ∧ (get_model_info answering_backend "llama3.1:8b" []).1
    = Ok answer_document.
Proof.
  split; [reflexivity|].
  exact (f_equal fst
           (get_model_info_document answering_backend "llama3.1:8b" []
              answer_response answer_document eq_refl eq_refl eq_refl)).
Defined.

Lemma get_model_info_call_failure_witness :
  isinstance_HTTPException (TimeoutException "timed out") = false
  ∧ (get_model_info slow_backend "foo" []).1
    = Raise (HTTPException 500 "timed out").
Proof.
  split; [reflexivity|].
  exact (f_equal fst
           (get_model_info_call_failure slow_backend "foo" []
              (TimeoutException "timed out") eq_refl eq_refl)).
Defined.

Lemma get_model_info_raises_404_or_500_witness :
  (∀ e : exn,
     refusing_backend [] (Post show_url (PDict {[ "name" := PStr "foo" ]}))
     = Failed e →
     isinstance_HTTPException e = false)
  ∧ match (get_model_info refusing_backend "foo" []).1 with
    | Ok _ => True
    | Raise e =>
        ∃ detail : string,
          e = HTTPException 404 detail ∨ e = HTTPException 500 detail
    end.
Proof.
  assert (Hclient : ∀ e : exn,
            refusing_backend []
              (Post show_url (PDict {[ "name" := PStr "foo" ]})) = Failed e →
            isinstance_HTTPException e = false).
  { intros e He. injection He as <-. reflexivity. }
  split; [exact Hclient|].
  exact (get_model_info_raises_404_or_500 refusing_backend "foo" [] Hclient).
Defined.

(** ** The legacy generate endpoint *)

Section Generate.

Context (be : backend) (request : gmap string pyval) (tr : list http_call).

Local Abbreviation forwarded := (Post generate_url (PDict request)).

(** The body of the request is forwarded as it is, and a 200 answer that
    is a JSON document is returned as decoded. *)
Theorem generate_completion_document (r : Response) (v : pyval) :
  be tr forwarded = Responded r →
  resp_status_code r = 200 →
  resp_json r = Some v →
  generate_completion be request tr = (Ok v, (tr ++ [forwarded])%list).
Proof.
  intros Hbe Hst Hj. unfold generate_completion. run_M.
  by rewrite Hbe, Hst, Hj.
Qed.

(** Whatever goes wrong (a timeout, a refused connection, an answer other
    than 200, a body that is not JSON), the caller gets a 500: the single
    handler catches every exception, the one raised for the backend's
    status included. *)
Theorem generate_completion_raises_500 :
  match (generate_completion be request tr).1 with
  | Ok _ => True
  | Raise e => ∃ detail : string, e = HTTPException 500 detail
  end.
Proof.
  unfold generate_completion. run_M.
  destruct (be tr _) as [r|e]; cbn; [|by eauto].
  destruct (resp_status_code r =? 200)%Z; cbn; [|by eauto].
  destruct (resp_json r); cbn; [done|by eauto].
Qed.

(** When the call fails, the detail of the 500 is the text of the
    failure. *)
Theorem generate_completion_call_failure (e : exn) :
  be tr forwarded = Failed e →
  generate_completion be request tr
  = (Raise (HTTPException 500 (str_exn e)), (tr ++ [forwarded])%list).
Proof.
  intros Hbe. unfold generate_completion. run_M. by rewrite Hbe.
Qed.

End Generate.

Lemma generate_completion_document_witness :
  resp_json answer_response = Some answer_document
  ∧ generate_completion answering_backend prompt_request []
    = (Ok answer_document, [Post generate_url (PDict prompt_request)]).
Proof.
  split; [reflexivity|].
  exact (generate_completion_document answering_backend prompt_request []
           answer_response answer_document eq_refl eq_refl eq_refl).
Defined.

Lemma generate_completion_call_failure_witness :
  slow_backend [] (Post generate_url (PDict prompt_request))
  = Failed (TimeoutException "timed out")
  ∧ (generate_completion slow_backend prompt_request []).1
    = Raise (HTTPException 500 "timed out").
Proof.
  split; [reflexivity|].
  exact (f_equal fst
           (generate_completion_call_failure slow_backend prompt_request []
              (TimeoutException "timed out") eq_refl)).
Defined.

(** ** More on the health check *)

Lemma model_names_named (entries names : list pyval) (t : list http_call) :
  Forall2 names_entry entries names →
  model_names entries t = (Ok names, t).
Proof.
  induction 1 as [|entry name entries names (m & -> & Hm) _ IH]; [done|].
  cbn. run_M. cbn. by rewrite Hm, IH.
Qed.

Lemma model_names_nameless (entries : list pyval) (t : list http_call) :
  Exists nameless entries →
  ∃ e : exn, model_names entries t = (Raise e, t).
Proof.
  induction entries as [|entry entries IH]; intros Hex.
  { by apply Exists_nil in Hex. }
  cbn. run_M. unfold subscript_name.
  destruct entry as [| | | | | |m]; cbn; try by eexists.
  destruct (m !! "name") as [name|] eqn:Hm; cbn; [|by eexists].
  apply Exists_cons in Hex as [Hbad|Hex].
  { specialize (Hbad m eq_refl). congruence. }
  destruct (IH Hex) as [e ->]. by eexists.
Qed.

Lemma validate_str_list_pure (vs : list pyval) (t : list http_call) :
  (validate_str_list vs t).2 = t.
Proof.
  induction vs as [|v vs IH]; [done|].
  destruct v; cbn; try done. run_M.
  destruct (validate_str_list vs t) as [[ss|e] t'] eqn:E; cbn in *; done.
Qed.

Section HealthMore.

Context (be : backend) (tr : list http_call).

(** When the backend answers 200 with a document whose [models] is a list
    of dictionaries that all have a [name], the check is "healthy" and
    lists those names in the backend's order. *)
Theorem check_ollama_health_lists_names (r : Response)
    (d : gmap string pyval) (entries names : list pyval) :
  be tr (Get tags_url) = Responded r →
  resp_status_code r = 200 →
  resp_json r = Some (PDict d) →
  d !! "models" = Some (PList entries) →
  Forall2 names_entry entries names →
  check_ollama_health be tr
  = (Ok (mkOllamaHealth "healthy" names), (tr ++ [Get tags_url])%list).
Proof.
  intros Hbe Hst Hj Hd Hnames. unfold check_ollama_health. run_M.
  rewrite Hbe, Hst, Hj. cbn. rewrite Hd. cbn.
  by rewrite (model_names_named entries names).
Qed.

(** A 200 document without a [models] key counts as healthy with no
    model. *)
Theorem check_ollama_health_no_models_key (r : Response)
    (d : gmap string pyval) :
  be tr (Get tags_url) = Responded r →
  resp_status_code r = 200 →
  resp_json r = Some (PDict d) →
  d !! "models" = None →
  check_ollama_health be tr
  = (Ok (mkOllamaHealth "healthy" []), (tr ++ [Get tags_url])%list).
Proof.
  intros Hbe Hst Hj Hd. unfold check_ollama_health. run_M.
  by rewrite Hbe, Hst, Hj; cbn; rewrite Hd.
Qed.

(** One entry without a name spoils the list: the check is "unhealthy"
    with no model at all, never a partial list. *)
Theorem check_ollama_health_nameless_entry (r : Response)
    (d : gmap string pyval) (entries : list pyval) :
  be tr (Get tags_url) = Responded r →
  resp_status_code r = 200 →
  resp_json r = Some (PDict d) →
  d !! "models" = Some (PList entries) →
  Exists nameless entries →
  check_ollama_health be tr
  = (Ok (mkOllamaHealth "unhealthy" []), (tr ++ [Get tags_url])%list).
Proof.
  intros Hbe Hst Hj Hd Hbad. unfold check_ollama_health. run_M.
  rewrite Hbe, Hst, Hj. cbn. rewrite Hd. cbn.
  destruct (model_names_nameless entries (tr ++ [Get tags_url]) Hbad)
    as [e ->].
  done.
Qed.

(** A 200 answer is not enough to be healthy: when the body is not a JSON
    document, or the document is not an object, the check is
    "unhealthy". *)
Theorem check_ollama_health_not_an_object (r : Response) :
  be tr (Get tags_url) = Responded r →
  resp_status_code r = 200 →
  match resp_json r with Some (PDict _) => False | _ => True end →
  check_ollama_health be tr
  = (Ok (mkOllamaHealth "unhealthy" []), (tr ++ [Get tags_url])%list).
Proof.
  intros Hbe Hst Hj. unfold check_ollama_health. run_M.
  rewrite Hbe, Hst. cbn.
  destruct (resp_json r) as [[| | | | | |d]|]; cbn; done.
Qed.

(** When the models the backend lists all have a string for name,
    [/health] answers "healthy" with those names, in the backend's
    order, and the time it was given. *)
Theorem health_check_healthy (now : string) (r : Response)
    (d : gmap string pyval) (entries : list pyval) (names : list string) :
  be tr (Get tags_url) = Responded r →
  resp_status_code r = 200 →
  resp_json r = Some (PDict d) →
  d !! "models" = Some (PList entries) →
  Forall2 names_entry entries (PStr <$> names) →
  health_check be now tr
  = (Ok (mkHealthResponse "healthy" now "healthy" names),
     (tr ++ [Get tags_url])%list).
Proof.
  intros Hbe Hst Hj Hd Hnames. unfold health_check, HealthResponse_init.
  unfold check_ollama_health. run_M.
  rewrite Hbe, Hst, Hj. cbn. rewrite Hd. cbn.
  rewrite (model_names_named entries (PStr <$> names)) by done. cbn.
  by rewrite validate_str_list_strings.
Qed.

(** [startup_event] never raises, whatever the backend does; it logs the
    warning exactly when the check is not healthy, and otherwise the
    number of models found. *)
Theorem startup_event_never_raises :
  ∃ (h : OllamaHealth) (log : list (log_level * string)),
    check_ollama_health be tr = (Ok h, (tr ++ [Get tags_url])%list)
    ∧ startup_event be tr = (Ok log, (tr ++ [Get tags_url])%list)
    ∧ ((WARNING, "Ollama service is not healthy - some endpoints may not work")
         ∈ log ↔ health_status h ≠ "healthy")
    ∧ ((INFO, "Ollama is healthy with " ++ pretty (length (health_models h))
              ++ " models available") ∈ log ↔ health_status h = "healthy").
Proof.
  destruct (check_ollama_health_returns be tr) as (h & Hrun & _ & _).
  exists h. unfold startup_event. run_M. rewrite Hrun.
  destruct (String.eqb_spec (health_status h) "healthy") as [Heq|Hne];
    eexists; (split; [done|]); (split; [done|]); cbn;
    rewrite !elem_of_cons, !elem_of_nil; split; split;
    intros H; try done; try (right; right; left; done);
    repeat (destruct H as [H|H]; [by simplify_eq|]); done.
Qed.

End HealthMore.

Lemma two_models_named :
  Forall2 names_entry two_models_entries
    (PStr <$> ["llama3.1:8b"; "mistral:7b"]).
Proof.
  repeat constructor; eexists; (split; [reflexivity|]); reflexivity.
Defined.

Lemma check_ollama_health_lists_names_witness :
  resp_status_code two_models_response = 200
  ∧ check_ollama_health two_models_backend []
    = (Ok (mkOllamaHealth "healthy" [PStr "llama3.1:8b"; PStr "mistral:7b"]),
       [Get tags_url]).
Proof.
  split; [reflexivity|].
  exact (check_ollama_health_lists_names two_models_backend []
           two_models_response {[ "models" := PList two_models_entries ]}
           two_models_entries [PStr "llama3.1:8b"; PStr "mistral:7b"]
           eq_refl eq_refl eq_refl eq_refl two_models_named).
Defined.

Lemma check_ollama_health_no_models_key_witness :
  resp_json no_models_key_response = Some (PDict ∅)
  ∧ check_ollama_health no_models_key_backend []
    = (Ok (mkOllamaHealth "healthy" []), [Get tags_url]).
Proof.
  split; [reflexivity|].
  exact (check_ollama_health_no_models_key no_models_key_backend []
           no_models_key_response ∅ eq_refl eq_refl eq_refl eq_refl).
Defined.

Lemma check_ollama_health_nameless_entry_witness :
  Exists nameless
    [PDict {[ "name" := PStr "llama3.1:8b" ]}; PDict {[ "size" := PInt 1 ]}]
  ∧ check_ollama_health nameless_entry_backend []
    = (Ok (mkOllamaHealth "unhealthy" []), [Get tags_url]).
Proof.
  assert (Hbad : Exists nameless
            [PDict {[ "name" := PStr "llama3.1:8b" ]};
             PDict {[ "size" := PInt 1 ]}]).
  { apply Exists_cons_tl, Exists_cons_hd. intros m [= <-]. reflexivity. }
  split; [exact Hbad|].
  exact (check_ollama_health_nameless_entry nameless_entry_backend []
           nameless_entry_response _ _ eq_refl eq_refl eq_refl eq_refl Hbad).
Defined.

Lemma check_ollama_health_not_an_object_witness :
  (resp_status_code two_documents_response = 200
   ∧ resp_json two_documents_response = None)
  ∧ check_ollama_health two_documents_backend []
    = (Ok (mkOllamaHealth "unhealthy" []), [Get tags_url]).
Proof.
  split; [split; reflexivity|].
  exact (check_ollama_health_not_an_object two_documents_backend []
           two_documents_response eq_refl eq_refl I).
Defined.

Lemma health_check_healthy_witness :
  resp_status_code two_models_response = 200
  ∧ health_check two_models_backend "2025-01-01T00:00:00" []
    = (Ok (mkHealthResponse "healthy" "2025-01-01T00:00:00" "healthy"
             ["llama3.1:8b"; "mistral:7b"]),
       [Get tags_url]).
Proof.
  split; [reflexivity|].
  exact (health_check_healthy two_models_backend [] "2025-01-01T00:00:00"
           two_models_response {[ "models" := PList two_models_entries ]}
           two_models_entries ["llama3.1:8b"; "mistral:7b"]
           eq_refl eq_refl eq_refl eq_refl two_models_named).
Defined.

(** ** One call on the client per request *)

(** Every endpoint makes exactly one call on [http_client] per request,
    whatever that call returns or raises and whatever the endpoint does
    next: no call is repeated and no second endpoint of the backend is
    asked.  (Whether a call that raised ever reached the backend is the
    client's matter: a body it refuses to encode is never sent.) *)
Theorem one_client_call_per_request (be : backend) (tr : list http_call)
    (chat : ChatRequest) (model_name now : string)
    (prompt : gmap string pyval) :
  (chat_completion be chat tr).2
  = (tr ++ [Post chat_url (PDict (build_ollama_request chat))])%list
  ∧ (list_models be tr).2 = (tr ++ [Get tags_url])%list
  ∧ (get_model_info be model_name tr).2
    = (tr ++ [Post show_url (PDict {[ "name" := PStr model_name ]})])%list
  ∧ (generate_completion be prompt tr).2
    = (tr ++ [Post generate_url (PDict prompt)])%list
  ∧ (health_check be now tr).2 = (tr ++ [Get tags_url])%list.
Proof.
  split; [apply chat_completion_trace|].
  split.
  { unfold list_models. run_M. destruct (be tr _) as [r|e]; cbn.
    - destruct (resp_status_code r =? 200)%Z; cbn; [|done].
      by destruct (resp_json r).
    - by destruct e. }
  split.
  { unfold get_model_info. run_M. destruct (be tr _) as [r|e]; cbn.
    - destruct (resp_status_code r =? 200)%Z; cbn.
      + by destruct (resp_json r).
      + by destruct (resp_status_code r =? 404)%Z.
    - by destruct e. }
  split.
  { unfold generate_completion. run_M. destruct (be tr _) as [r|e]; cbn.
    - destruct (resp_status_code r =? 200)%Z; cbn; [|done].
      by destruct (resp_json r).
    - done. }
  destruct (check_ollama_health_returns be tr) as (h & Hrun & _ & _).
  unfold health_check, HealthResponse_init. run_M. rewrite Hrun.
  pose proof (validate_str_list_pure (health_models h)
                (tr ++ [Get tags_url])) as Hpure.
  destruct (validate_str_list (health_models h) _) as [[ms|e] tr'];
    cbn in *; by subst.
Qed.

(** ** No null at top level *)

(** No key of a reshaped message, and no key of the dictionary handed to
    the client, has null for value: a field that is missing is left out
    instead.  This is about these two dictionaries' own keys; what lies
    inside [options], [tools] or a tool call's [function] is passed on as
    given, nulls included. *)
Theorem no_null_at_top_level (message : ChatMessage) (request : ChatRequest)
    (key : string) :
  format_message_for_ollama message !! key ≠ Some PNone
  ∧ build_ollama_request request !! key ≠ Some PNone.
Proof.
  split; intros Hk.
  - destruct message as [r [[|a s]|] [[|tc tcs]|]]; cbn in Hk;
      repeat (apply lookup_insert_Some in Hk as [[_ Hk]|[_ Hk]]; [done|]);
      by apply lookup_singleton_Some in Hk as [_ Hk].
  - revert Hk. split_request request; intros Hk;
      repeat (apply lookup_insert_Some in Hk as [[_ Hk]|[_ Hk]]; [done|]);
      by apply lookup_singleton_Some in Hk as [_ Hk].
Qed.
